(** * IF482 time-telegram generator (src/if482.cpp)

    A shallow embedding of the telegram formatter [if482Telegram], of the
    transmit task [if482_loop] and of the 1 Hz interrupt handler [IF482IRQ],
    together with the small parts of the C library, of the Time library and
    of FreeRTOS that the three functions call. *)

From Stdlib Require Import ZArith Ascii String List Bool Lia.
Import ListNotations.
Local Open Scope Z_scope.

(** ** C library: character arrays and [snprintf] *)

Module Libc.

Definition NUL : ascii := "000"%char.
Definition CR : ascii := "013"%char.

(** The C string held in a character array: the bytes before the first
    NUL. *)
Fixpoint cstr (a : list ascii) : list ascii :=
  match a with
  | [] => []
  | c :: r => if Ascii.eqb c NUL then [] else c :: cstr r
  end.

(** [char a[n] = "lit"]: the bytes of the literal, the rest of the array
    zero-filled (so the literal's terminator is there when it fits). *)
Definition char_array (n : nat) (lit : string) : list ascii :=
  let l := list_ascii_of_string lit in
  l ++ repeat NUL (n - length l).

Definition digit (d : Z) : ascii := ascii_of_nat (48 + Z.to_nat d).

(** Decimal digits of an unsigned value, most significant first.  The fuel
    is the number of digits that may still be produced. *)
Fixpoint utoa_rec (fuel : nat) (n : Z) (acc : list ascii) : list ascii :=
  match fuel with
  | O => acc
  | S f =>
      let acc' := digit (n mod 10) :: acc in
      if n / 10 =? 0 then acc' else utoa_rec f (n / 10) acc'
  end.

(** A 32-bit unsigned value has at most ten decimal digits. *)
Definition utoa (n : Z) : list ascii := utoa_rec 10 n [].

(** The conversions [%0<width>u] (pad = '0') and [%<width>u] (pad = ' ')
    applied to an [int] argument [v]: the argument is read as an
    [unsigned int] (32 bits on the ESP32), printed in decimal, and padded
    on the left up to the minimum field width.  A longer number is never
    cut by the conversion itself. *)
Definition fmt_u (pad : ascii) (width : nat) (v : Z) : list ascii :=
  let d := utoa (v mod 2 ^ 32) in
  repeat pad (width - length d) ++ d.

(** [snprintf(dst, size, ...)] where the format expands to [s]: at most
    [size - 1] bytes of [s] are stored, followed by a NUL; the rest of
    [dst] is left as it was.  With [size = 0] nothing is stored. *)
Definition snprintf (dst : list ascii) (size : nat) (s : list ascii)
  : list ascii :=
  match size with
  | O => dst
  | S m => let w := firstn m s in w ++ NUL :: skipn (S (length w)) dst
  end.

(** A character other than the terminator. *)
Definition nonNUL (c : ascii) : Prop := c <> NUL.

End Libc.
Import Libc.

(** ** Time library (TimeLib.h), the collaborator that owns the clock *)

Definition time_t := Z.

(** [typedef enum {timeNotSet, timeNeedsSync, timeSet} timeStatus_t;]
    The header belongs to the Time library; only the order of the
    enumerators matters here, C++ numbering them from 0 in that order. *)
Inductive timeStatus_t := timeNotSet | timeNeedsSync | timeSet.

Definition timeStatus_val (s : timeStatus_t) : Z :=
  match s with
  | timeNotSet => 0
  | timeNeedsSync => 1
  | timeSet => 2
  end.

(** The calendar accessors [year(t)], [month(t)], ... each return an [int].
    They are taken as an interface: the formatter only reads them. *)
Class TimeLib := {
  year : time_t -> Z;
  month : time_t -> Z;
  day : time_t -> Z;
  weekday : time_t -> Z;
  hour : time_t -> Z;
  minute : time_t -> Z;
  second : time_t -> Z
}.

(** A time source for one calendar day, used to evaluate the code on
    concrete dates: the date fields are the given ones and the time of day
    is taken from the count of seconds since 1970, 86400 to a day. *)
Definition day_clock (y mo d wd : Z) : TimeLib :=
  {| year := fun _ => y; month := fun _ => mo; day := fun _ => d;
     weekday := fun _ => wd;
     hour := fun t => t / 3600 mod 24;
     minute := fun t => t / 60 mod 60;
     second := fun t => t mod 60 |}.

(** ** The telegram formatter *)

(** C's [!x] on an integer. *)
Definition c_not (x : Z) : bool := x =? 0.

(** [return out;] builds the Arduino [String] from the C string found in
    the array [out]; the characters of that [String] are kept as a list. *)
Definition String_of (a : list ascii) : list ascii := cstr a.

Section Formatter.

Context {TL : TimeLib}.

(** The expansion of ["%02u%02u%02u%1u%02u%02u%02u"] on the arguments of
    the first [snprintf]. *)
Definition digits_fmt (t : time_t) : list ascii :=
  fmt_u "0" 2 (year t - 2000) ++ fmt_u "0" 2 (month t)
    ++ fmt_u "0" 2 (day t) ++ fmt_u " " 1 (weekday t)
    ++ fmt_u "0" 2 (hour t) ++ fmt_u "0" 2 (minute t)
    ++ fmt_u "0" 2 (second t).

(** The monitoring character chosen by the [switch] on [timeStatus()]. *)
Definition monitoring (status : timeStatus_t) : ascii :=
  match status with
  | timeSet => "A"
  | timeNeedsSync => "M"
  | _ => "?"
  end%char.

(** The body of [if482Telegram] on its two local arrays.  [out] is the
    content the uninitialised array [char out[17]] happens to have on
    entry, [status] is what [timeStatus()] returns.  The result is the
    final content of [buf] and of [out]. *)
Definition if482Telegram_mem (out : list ascii) (status : timeStatus_t)
    (t : time_t) : list ascii * list ascii :=
  let mon := monitoring status in
  let buf := char_array 14 "000000F000000" in
  let buf :=
    if c_not (timeStatus_val timeNotSet)
    then snprintf buf 14 (digits_fmt t)
    else buf in
  let out :=
    snprintf out 17 ("O"%char :: mon :: "L"%char :: cstr buf ++ [CR]) in
  (buf, out).

Definition if482Telegram (status : timeStatus_t) (t : time_t)
  : list ascii :=
  String_of (snd (if482Telegram_mem (repeat NUL 17) status t)).

End Formatter.

(** ** FreeRTOS: tick counter, direct-to-task notification, absolute delay

    The kernel is not part of this repository.  The services the file
    calls are modelled after the kernel's documented behaviour, on the part
    of the kernel state they touch. *)

Definition TickType_t := Z.

(** [TickType_t] and the notification value are 32-bit unsigned. *)
Definition u32 (z : Z) : Z := z mod 2 ^ 32.

Definition ULONG_MAX : Z := 2 ^ 32 - 1.

Inductive eNotifyAction :=
| eNoAction
| eSetBits
| eIncrement
| eSetValueWithOverwrite
| eSetValueWithoutOverwrite.

(** What the task does that can be observed from outside: the absolute
    deadline it asks to be delayed until, and the frames it writes to the
    serial port, each with the tick count at which the write is issued. *)
Inductive event :=
| EvDelayUntil (xTimeToWake : TickType_t)
| EvPrint (tick : TickType_t) (frame : list ascii).

Record world := {
  xTickCount : TickType_t;      (* the kernel's monotonic tick counter *)
  ulNotifiedValue : Z;          (* notification value of IF482Task *)
  ucNotifyState : bool;         (* a notification is pending *)
  trace : list event            (* observable events so far, oldest first *)
}.

Definition xTaskGetTickCount (w : world) : TickType_t := xTickCount w.
Definition xTaskGetTickCountFromISR (w : world) : TickType_t := xTickCount w.

(** [xTaskNotifyFromISR(task, ulValue, eAction, NULL)]: the notification
    becomes pending and the value is updated as [eAction] says. *)
Definition xTaskNotifyFromISR (ulValue : Z) (eAction : eNotifyAction)
    (w : world) : world :=
  let v := ulNotifiedValue w in
  let v' :=
    match eAction with
    | eNoAction => v
    | eSetBits => Z.lor v ulValue
    | eIncrement => u32 (v + 1)
    | eSetValueWithOverwrite => ulValue
    | eSetValueWithoutOverwrite => if ucNotifyState w then v else ulValue
    end in
  {| xTickCount := xTickCount w; ulNotifiedValue := v';
     ucNotifyState := true; trace := trace w |}.

(** [xTaskNotifyWait(clrEntry, clrExit, &value, portMAX_DELAY)].  With
    [portMAX_DELAY] the call returns only when a notification is pending:
    [None] stands for the task staying blocked.  When one is pending the
    caller receives the value as it is, then the bits of [clrExit] are
    cleared in it and the pending state is reset.  ([clrEntry] only acts
    when nothing is pending on entry; the loop passes 0 there.) *)
Definition xTaskNotifyWait (clrEntry clrExit : Z) (w : world)
    : option (Z * world) :=
  if ucNotifyState w then
    Some (ulNotifiedValue w,
          {| xTickCount := xTickCount w;
             ulNotifiedValue :=
               Z.land (ulNotifiedValue w) (Z.lxor ULONG_MAX (u32 clrExit));
             ucNotifyState := false; trace := trace w |})
  else None.

(** [vTaskDelayUntil(&prev, incr)]: the deadline is [prev + incr] in tick
    arithmetic; the task sleeps until the tick counter reaches it, unless
    the deadline has already passed (the two branches tell a wrapped
    counter from a wrapped deadline).  [prev] is updated to the deadline. *)
Definition vTaskDelayUntil (prev incr : TickType_t) (w : world)
    : TickType_t * world :=
  let xConstTickCount := xTickCount w in
  let xTimeToWake := u32 (prev + incr) in
  let xShouldDelay :=
    if xConstTickCount <? prev
    then (xTimeToWake <? prev) && (xConstTickCount <? xTimeToWake)
    else (xTimeToWake <? prev) || (xConstTickCount <? xTimeToWake) in
  (xTimeToWake,
   {| xTickCount := if xShouldDelay then xTimeToWake else xConstTickCount;
      ulNotifiedValue := ulNotifiedValue w;
      ucNotifyState := ucNotifyState w;
      trace := trace w ++ [EvDelayUntil xTimeToWake] |}).

(** [IF482.print(s)]: the characters of [s] go out on the serial port. *)
Definition IF482_print (s : list ascii) (w : world) : world :=
  {| xTickCount := xTickCount w; ulNotifiedValue := ulNotifiedValue w;
     ucNotifyState := ucNotifyState w;
     trace := trace w ++ [EvPrint (xTickCount w) s] |}.

(** ** The interrupt handler and the transmit task *)

(** [IF482IRQ]: post the tick count of the edge to the task.
    ([portYIELD_FROM_ISR] only asks for a context switch.) *)
Definition IF482IRQ (w : world) : world :=
  xTaskNotifyFromISR (xTaskGetTickCountFromISR w) eSetBits w.

Section Scheduler.

Context {TL : TimeLib}.

(** Configuration constants, set in the project's configuration headers. *)
Variable configTICK_RATE_HZ : Z.
Variable IF482_OFFSET : Z.

Definition pdMS_TO_TICKS (xTimeInMs : Z) : TickType_t :=
  u32 (u32 xTimeInMs * u32 configTICK_RATE_HZ) / 1000.

Definition shotTime : TickType_t := pdMS_TO_TICKS IF482_OFFSET.

(** One turn of the [for (;;)] loop of [if482_loop].  [startTime] is the
    tick count read once the start-up polling has seen the second change;
    [now_] is what [now()] returns after the wake-up and [status] what
    [timeStatus()] returns inside the formatter.  [None]: the task is
    blocked in [xTaskNotifyWait]. *)
Definition if482_loop_iter (startTime : TickType_t) (now_ : time_t)
    (status : timeStatus_t) (w : world) : option world :=
  match xTaskNotifyWait 0 ULONG_MAX w with
  | None => None
  | Some (wakeTime, w) =>
      let t := now_ in
      let wakeTime := u32 (wakeTime - startTime) in
      let '(_, w) := vTaskDelayUntil wakeTime shotTime w in
      Some (IF482_print (if482Telegram status (t + 1)) w)
  end.

(** The start-up polling [t = tt = now(); do tt = now(); while (t == tt);]
    on the successive values [samples] that [now()] returns after the
    first one: the first value that differs from [t], if there is one. *)
Fixpoint poll_new_second (t : time_t) (samples : list time_t)
  : option time_t :=
  match samples with
  | [] => None
  | tt' :: rest => if t =? tt' then poll_new_second t rest else Some tt'
  end.

(** [wakeTime - startTime + shotTime] in tick arithmetic: the deadline
    handed to [vTaskDelayUntil] when the task is woken with the value
    [wakeTime]. *)
Definition wake_deadline (startTime wakeTime : TickType_t) : TickType_t :=
  u32 (u32 (wakeTime - startTime) + shotTime).

(** What can happen between two observations of the system: ticks pass,
    the 1 Hz edge fires the interrupt, or the task is given the CPU and
    runs one turn of its loop if it is not blocked. *)
Inductive action :=
| ATick (n : Z)
| AEdge
| ATask (now_ : time_t) (status : timeStatus_t).

Definition step (startTime : TickType_t) (w : world) (a : action)
  : world :=
  match a with
  | ATick n =>
      {| xTickCount := u32 (xTickCount w + n);
         ulNotifiedValue := ulNotifiedValue w;
         ucNotifyState := ucNotifyState w; trace := trace w |}
  | AEdge => IF482IRQ w
  | ATask now_ status =>
      match if482_loop_iter startTime now_ status w with
      | Some w' => w'
      | None => w
      end
  end.

Definition run (startTime : TickType_t) (acts : list action) (w : world)
  : world :=
  fold_left (step startTime) acts w.

(** [if482_loop]: the check [configASSERT(((uint32_t)pvParameters) == 1)]
    comes first; then, once the polling has seen the second change, the
    tick count is taken as [startTime] and the loop runs for ever; it is
    followed here along a finite schedule.  [None]: the check failed, or
    the second never changed in the samples given. *)
Definition if482_loop (pvParameters : Z) (t : time_t)
    (samples : list time_t) (acts : list action) (w : world)
  : option world :=
  if u32 pvParameters =? 1 then
    match poll_new_second t samples with
    | None => None
    | Some _ =>
        let startTime := xTaskGetTickCount w in
        Some (run startTime acts w)
    end
  else None.

(** The number of edges in a schedule. *)
Definition edges (acts : list action) : nat :=
  length (filter (fun a => match a with AEdge => true | _ => false end)
            acts).

End Scheduler.

(** The deadlines and the frames recorded in a trace. *)
Definition deadlines (tr : list event) : list TickType_t :=
  flat_map (fun e => match e with EvDelayUntil d => [d] | _ => [] end) tr.

Definition frames (tr : list event) : list (list ascii) :=
  flat_map (fun e => match e with EvPrint _ f => [f] | _ => [] end) tr.

Definition print_ticks (tr : list event) : list TickType_t :=
  flat_map (fun e => match e with EvPrint k _ => [k] | _ => [] end) tr.

(** ** The frame as the specification words it *)

(** The time source on 2016-08-06, a Saturday (day 7 of the week, Sunday
    being day 1), where 1470503040 is 17:04:00, and on 2100-01-01, a
    Friday, where 4102444800 is 00:00:00. *)
Definition clock_20160806 : TimeLib := day_clock 2016 8 6 7.
Definition clock_21000101 : TimeLib := day_clock 2100 1 1 6.

(** The time source of a clock that was never set, on its first day:
    1970-01-01, a Thursday. *)
Definition clock_19700101 : TimeLib := day_clock 1970 1 1 5.

(** A WallClock value: the ranges of its fields. *)
Definition WallClock {TL : TimeLib} (t : time_t) : Prop :=
  2000 <= year t /\ 1 <= month t <= 12 /\ 1 <= day t <= 31
  /\ 1 <= weekday t <= 7 /\ 0 <= hour t <= 23 /\ 0 <= minute t <= 59
  /\ 0 <= second t <= 59.

(** The zero-padded two-digit decimal encoding of a field, and the
    single-digit encoding of the weekday. *)
Definition two_digits (n : Z) : list ascii :=
  [digit (n / 10); digit (n mod 10)].

Definition one_digit (n : Z) : list ascii := [digit n].

(** Year mod 100, month, day, weekday, hour, minute, second. *)
Definition bcd_fields {TL : TimeLib} (t : time_t) : list ascii :=
  two_digits (year t mod 100) ++ two_digits (month t)
    ++ two_digits (day t) ++ one_digit (weekday t)
    ++ two_digits (hour t) ++ two_digits (minute t)
    ++ two_digits (second t).

(** Bytes 4 to 16 of a frame (bytes are counted from 1). *)
Definition bytes_4_16 (frame : list ascii) : list ascii :=
  firstn 13 (skipn 3 frame).

(** The frame the time-invalid case is meant to produce after the start,
    monitoring and season bytes: zeros and the weekday sentinel. *)
Definition sentinel_fields : list ascii :=
  list_ascii_of_string "000000F000000".

(** Notifications waiting to be read: none or one. *)
Definition pending_count (w : world) : nat :=
  if ucNotifyState w then 1%nat else 0%nat.

(** A woken task at tick 5000, just notified of the edge at tick 5000, and
    a task that has not yet read the edge of tick 1000 when tick 2000
    comes. *)
Definition world_edge_5000 : world :=
  {| xTickCount := 5000; ulNotifiedValue := 5000; ucNotifyState := true;
     trace := [] |}.

Definition world_unread_1000 : world :=
  {| xTickCount := 2000; ulNotifiedValue := 1000; ucNotifyState := true;
     trace := [] |}.

Definition world_idle_1000 : world :=
  {| xTickCount := 1000; ulNotifiedValue := 0; ucNotifyState := false;
     trace := [] |}.

(** The task three seconds after boot, waiting for the next edge. *)
Definition world_idle_3000 : world :=
  {| xTickCount := 3000; ulNotifiedValue := 0; ucNotifyState := false;
     trace := [] |}.

(** ** Vocabulary for further properties *)

(** A decimal digit character. *)
Definition is_digit (c : ascii) : Prop :=
  In c (list_ascii_of_string "0123456789").

(** The three-digit decimal encoding of a number from 100 to 999. *)
Definition three_digits (n : Z) : list ascii :=
  [digit (n / 100); digit (n / 10 mod 10); digit (n mod 10)].

(** Equality test on character lists. *)
Definition chars_eqb (a b : list ascii) : bool :=
  String.eqb (string_of_list_ascii a) (string_of_list_ascii b).

(** The numbers 0 .. n-1, to check a property on a finite range. *)
Definition below (n : nat) : list Z := map Z.of_nat (seq 0 n).

(** A schedule without task turns: only ticks and edges. *)
Definition no_task (acts : list action) : bool :=
  forallb (fun a => match a with ATask _ _ => false | _ => true end) acts.

(** One period of regular operation: [gap] ticks pass, the edge fires,
    [lag] ticks pass until the task runs, the task takes one turn reading
    [now_] and [status]. *)
Record period := {
  gap : Z;
  lag : Z;
  p_now : time_t;
  p_status : timeStatus_t
}.

Definition period_actions (p : period) : list action :=
  [ATick (gap p); AEdge; ATick (lag p); ATask (p_now p) (p_status p)].

Definition regular (ps : list period) : list action :=
  flat_map period_actions ps.

(** * Properties *)

(** ** Facts about the C library model *)

#[local] Hint Unfold nonNUL : core.

Lemma digit_cases (d : Z) :
  0 <= d < 10 ->
  In (digit d) (list_ascii_of_string "0123456789").
Proof.
  intros Hd.
  assert (d = 0 \/ d = 1 \/ d = 2 \/ d = 3 \/ d = 4 \/ d = 5 \/ d = 6
          \/ d = 7 \/ d = 8 \/ d = 9) as Hc by lia.
  repeat (destruct Hc as [-> | Hc]; [vm_compute; tauto |]).
  subst d; vm_compute; tauto.
Qed.

Lemma digit_nonNUL (d : Z) : 0 <= d < 10 -> nonNUL (digit d).
Proof.
  intros Hd. pose proof (digit_cases d Hd) as Hin.
  simpl in Hin. unfold nonNUL, NUL.
  repeat (destruct Hin as [<- | Hin]; [discriminate |]).
  contradiction.
Qed.

Lemma utoa_rec_nonNUL (fuel : nat) :
  forall n acc, Forall nonNUL acc -> Forall nonNUL (utoa_rec fuel n acc).
Proof.
  induction fuel as [| f IH]; intros n acc Hacc; simpl; [assumption |].
  assert (Forall nonNUL (digit (n mod 10) :: acc)) as Hacc'.
  { constructor; [| assumption].
    apply digit_nonNUL. apply Z.mod_pos_bound. lia. }
  destruct (n / 10 =? 0); [assumption | apply IH; assumption].
Qed.

Lemma utoa_rec_length (fuel : nat) :
  forall n acc, (length acc <= length (utoa_rec fuel n acc))%nat.
Proof.
  induction fuel as [| f IH]; intros n acc; simpl; [lia |].
  destruct (n / 10 =? 0); simpl; [lia |].
  specialize (IH (n / 10) (digit (n mod 10) :: acc)). simpl in IH. lia.
Qed.

Lemma utoa_length (n : Z) : (1 <= length (utoa n))%nat.
Proof.
  unfold utoa. simpl.
  destruct (n / 10 =? 0); simpl; [lia |].
  pose proof (utoa_rec_length 9 (n / 10) [digit (n mod 10)]) as H.
  simpl in H. lia.
Qed.

Lemma fmt_u_nonNUL (pad : ascii) (width : nat) (v : Z) :
  nonNUL pad -> Forall nonNUL (fmt_u pad width v).
Proof.
  intros Hpad. unfold fmt_u. apply Forall_app. split.
  - apply Forall_forall. intros c Hc. apply repeat_spec in Hc. now subst.
  - apply utoa_rec_nonNUL. constructor.
Qed.

Lemma fmt_u_length (pad : ascii) (width : nat) (v : Z) :
  (width <= length (fmt_u pad width v))%nat
  /\ (1 <= length (fmt_u pad width v))%nat.
Proof.
  unfold fmt_u. rewrite length_app, repeat_length.
  pose proof (utoa_length (v mod 2 ^ 32)). lia.
Qed.

Lemma cstr_app_NUL (l r : list ascii) :
  Forall nonNUL l -> cstr (l ++ NUL :: r) = l.
Proof.
  induction 1 as [| c l Hc _ IH]; simpl; [reflexivity |].
  destruct (Ascii.eqb_spec c NUL) as [-> | _]; [now elim Hc |].
  now rewrite IH.
Qed.

Lemma Forall_firstn {A} (P : A -> Prop) (n : nat) (l : list A) :
  Forall P l -> Forall P (firstn n l).
Proof.
  intros H. revert n.
  induction H as [| x l Hx _ IH]; intros [| n]; simpl; auto.
Qed.

(** [snprintf] stays inside the array it is given. *)
Lemma snprintf_length (dst : list ascii) (size : nat) (s : list ascii) :
  (size <= length dst)%nat -> length (snprintf dst size s) = length dst.
Proof.
  intros Hsz. destruct size as [| m]; [reflexivity |].
  unfold snprintf. rewrite length_app. cbn [length].
  rewrite length_skipn, length_firstn. lia.
Qed.

(** ** The formatter in closed form *)

Section FormatterFacts.

Context {TL : TimeLib}.

Lemma digits_fmt_nonNUL (t : time_t) : Forall nonNUL (digits_fmt t).
Proof.
  unfold digits_fmt.
  repeat (apply Forall_app; split;
          [apply fmt_u_nonNUL; unfold nonNUL, NUL; discriminate |]).
  apply fmt_u_nonNUL; unfold nonNUL, NUL; discriminate.
Qed.

Lemma digits_fmt_length (t : time_t) : (13 <= length (digits_fmt t))%nat.
Proof.
  unfold digits_fmt. rewrite !length_app.
  pose proof (fmt_u_length "0" 2 (year t - 2000)).
  pose proof (fmt_u_length "0" 2 (month t)).
  pose proof (fmt_u_length "0" 2 (day t)).
  pose proof (fmt_u_length " " 1 (weekday t)).
  pose proof (fmt_u_length "0" 2 (hour t)).
  pose proof (fmt_u_length "0" 2 (minute t)).
  pose proof (fmt_u_length "0" 2 (second t)).
  lia.
Qed.

Lemma monitoring_nonNUL (status : timeStatus_t) :
  nonNUL (monitoring status).
Proof. destruct status; unfold nonNUL, NUL; discriminate. Qed.

(** The two arrays when the function returns: [buf] holds the first 13
    characters of the digit string and its terminator; [out] holds
    ['O'], the monitoring character, ['L'], those 13 characters and a
    terminator in its 17th and last byte, so that the carriage return of
    the format is the excess that [snprintf] drops. *)
Lemma if482Telegram_mem_eq (out0 : list ascii) (status : timeStatus_t)
    (t : time_t) :
  if482Telegram_mem out0 status t
  = (firstn 13 (digits_fmt t) ++ [NUL],
     "O"%char :: monitoring status :: "L"%char
       :: firstn 13 (digits_fmt t) ++ NUL :: skipn 17 out0).
Proof.
  pose proof (digits_fmt_length t) as Hlen.
  pose proof (digits_fmt_nonNUL t) as Hnn.
  assert (length (firstn 13 (digits_fmt t)) = 13%nat) as H13
      by (rewrite length_firstn; lia).
  unfold if482Telegram_mem.
  change (c_not (timeStatus_val timeNotSet)) with true. cbv iota.
  assert (snprintf (char_array 14 "000000F000000") 14 (digits_fmt t)
          = firstn 13 (digits_fmt t) ++ [NUL]) as Hbuf.
  { unfold snprintf. rewrite H13. reflexivity. }
  rewrite Hbuf. f_equal.
  rewrite cstr_app_NUL by (apply Forall_firstn; assumption).
  unfold snprintf.
  assert (firstn 16 ("O"%char :: monitoring status :: "L"%char
                       :: firstn 13 (digits_fmt t) ++ [CR])
          = "O"%char :: monitoring status :: "L"%char
              :: firstn 13 (digits_fmt t)) as Hout.
  { do 3 rewrite firstn_cons. do 3 f_equal.
    rewrite firstn_app, H13, Nat.sub_diag, firstn_0, app_nil_r.
    apply firstn_all2. lia. }
  rewrite Hout. cbn [length]. rewrite H13. reflexivity.
Qed.

Lemma String_of_out (out0 : list ascii) (status : timeStatus_t)
    (t : time_t) :
  String_of (snd (if482Telegram_mem out0 status t))
  = "O"%char :: monitoring status :: "L"%char
      :: firstn 13 (digits_fmt t).
Proof.
  rewrite if482Telegram_mem_eq. cbn [snd]. unfold String_of.
  change ("O"%char :: monitoring status :: "L"%char
            :: firstn 13 (digits_fmt t) ++ NUL :: skipn 17 out0)
    with (("O"%char :: monitoring status :: "L"%char
             :: firstn 13 (digits_fmt t)) ++ NUL :: skipn 17 out0).
  apply cstr_app_NUL.
  repeat constructor; try (unfold nonNUL, NUL; discriminate).
  - apply monitoring_nonNUL.
  - apply Forall_firstn, digits_fmt_nonNUL.
Qed.

Lemma if482Telegram_eq (status : timeStatus_t) (t : time_t) :
  if482Telegram status t
  = "O"%char :: monitoring status :: "L"%char
      :: firstn 13 (digits_fmt t).
Proof. unfold if482Telegram. apply String_of_out. Qed.

Lemma if482Telegram_length (status : timeStatus_t) (t : time_t) :
  length (if482Telegram status t) = 16%nat.
Proof.
  rewrite if482Telegram_eq. cbn [length].
  rewrite length_firstn. pose proof (digits_fmt_length t). lia.
Qed.

End FormatterFacts.

(** ** The telegram formatter: claims *)

(** C1.  The claim is that every frame has exactly 17 bytes, 'O' first,
    'L' third and a carriage return as byte 17.  The code stores the frame
    in a 17-byte array, terminator included, so for every time value and
    every status the returned frame has 16 bytes: 'O' is byte 1 and 'L'
    byte 3, but there is no byte 17 and the carriage return is lost.  At
    2016-08-06 17:04:00, synced, the frame is OAL1608067170400. *)
Theorem if482Telegram_drops_CR :
  (forall (TL : TimeLib) (status : timeStatus_t) (t : time_t),
      length (if482Telegram status t) = 16%nat
      /\ nth_error (if482Telegram status t) 0 = Some "O"%char
      /\ nth_error (if482Telegram status t) 2 = Some "L"%char
      /\ nth_error (if482Telegram status t) 16 = None)
  /\ @if482Telegram clock_20160806 timeSet 1470503040
     = list_ascii_of_string "OAL1608067170400".
Proof.
  split; [| reflexivity].
  intros TL status t.
  pose proof (if482Telegram_length status t) as Hlen.
  split; [assumption |].
  rewrite if482Telegram_eq in *.
  repeat split; try reflexivity.
  apply nth_error_None. lia.
Qed.

(** C2.  The claim is that with the time not set the digit fields are all
    '0' and the weekday field is 'F'.  The guard in front of the first
    snprintf tests the enumerator timeNotSet, not the status, so the time
    is formatted over the preset fields in every state: bytes 4 to 16 are
    the formatted time also when the status is timeNotSet.  At 2016-08-06
    17:04:00, not set, the frame is O?L1608067170400. *)
Theorem if482Telegram_unset_formats_time :
  (forall (TL : TimeLib) (t : time_t),
      bytes_4_16 (if482Telegram timeNotSet t) = firstn 13 (digits_fmt t))
  /\ @if482Telegram clock_20160806 timeNotSet 1470503040
     = list_ascii_of_string "O?L1608067170400"
  /\ bytes_4_16 (@if482Telegram clock_20160806 timeNotSet 1470503040)
     <> sentinel_fields.
Proof.
  split; [| split; [reflexivity | vm_compute; discriminate]].
  intros TL t. rewrite if482Telegram_eq. unfold bytes_4_16.
  cbn [skipn]. rewrite firstn_firstn. reflexivity.
Qed.

(** *** Digit fields *)

Lemma u32_range_small (v : Z) : 0 <= v < 100 -> v mod 2 ^ 32 = v.
Proof. intros H. apply Z.mod_small. change (2 ^ 32) with 4294967296. lia. Qed.

Lemma fmt_u_two_digits (v : Z) :
  0 <= v < 100 -> fmt_u "0" 2 v = two_digits v.
Proof.
  intros Hv. unfold fmt_u, two_digits, utoa.
  rewrite (u32_range_small v Hv). cbn [utoa_rec].
  destruct (Z_lt_le_dec v 10) as [Hlt | Hge].
  - rewrite (Z.div_small v 10) by lia. reflexivity.
  - assert (0 < v / 10 < 10) as Hq
        by (split; [apply Z.div_str_pos | apply Z.div_lt_upper_bound]; lia).
    destruct (Z.eqb_spec (v / 10) 0) as [H0 | _]; [lia |].
    rewrite (Z.div_small (v / 10) 10) by lia. cbn [Z.eqb].
    rewrite (Z.mod_small (v / 10) 10) by lia. reflexivity.
Qed.

Lemma fmt_u_one_digit (v : Z) :
  0 <= v < 10 -> fmt_u " " 1 v = one_digit v.
Proof.
  intros Hv. unfold fmt_u, one_digit, utoa.
  rewrite (u32_range_small v) by lia. cbn [utoa_rec].
  rewrite (Z.div_small v 10), (Z.mod_small v 10) by lia. reflexivity.
Qed.

(** Within this century the digit string is the one of the specification
    and fills the 13 places exactly. *)
Lemma digits_fmt_bcd {TL : TimeLib} (t : time_t) :
  WallClock t -> year t < 2100 -> digits_fmt t = bcd_fields t.
Proof.
  intros (Hy & Hmo & Hd & Hwd & Hh & Hmi & Hs) Hy'.
  unfold digits_fmt, bcd_fields.
  assert (year t mod 100 = year t - 2000) as ->
      by (symmetry; apply Z.mod_unique with 20; lia).
  rewrite !fmt_u_two_digits, fmt_u_one_digit by lia. reflexivity.
Qed.

(** C5, as stated, fails: in the year 2100 the year field takes three
    places ("100") and the fields that follow are shifted by one. *)
Lemma if482Telegram_year_2100 :
  ~ (forall (TL : TimeLib) (t : time_t),
        WallClock t ->
        bytes_4_16 (if482Telegram timeSet t) = bcd_fields t).
Proof.
  intros H. specialize (H clock_21000101 4102444800).
  assert (@WallClock clock_21000101 4102444800) as Hw
      by (unfold WallClock; cbn; lia).
  specialize (H Hw). vm_compute in H. discriminate H.
Qed.

(** C5, amended.  For every WallClock value with a year from 2000 to 2099
    and the status synced, bytes 4 to 16 of the frame are the two-digit
    encodings of year mod 100, month and day, the one-digit weekday, and
    the two-digit encodings of hour, minute and second. *)
Theorem if482Telegram_digit_fields (TL : TimeLib) (t : time_t) :
  WallClock t ->
  year t < 2100 ->
  bytes_4_16 (if482Telegram timeSet t) = bcd_fields t.
Proof.
  intros Hw Hy. rewrite if482Telegram_eq. unfold bytes_4_16.
  cbn [skipn]. rewrite firstn_firstn, (digits_fmt_bcd t Hw Hy).
  apply firstn_all2. unfold bcd_fields, two_digits, one_digit. cbn. lia.
Qed.

Lemma if482Telegram_digit_fields_witness :
  @WallClock clock_20160806 1470503040
  /\ @year clock_20160806 1470503040 < 2100
  /\ bytes_4_16 (@if482Telegram clock_20160806 timeSet 1470503040)
     = list_ascii_of_string "1608067170400".
Proof.
  assert (@WallClock clock_20160806 1470503040) as Hw
      by (unfold WallClock; cbn; lia).
  assert (@year clock_20160806 1470503040 < 2100) as Hy by (cbn; lia).
  split; [exact Hw | split; [exact Hy |]].
  rewrite (if482Telegram_digit_fields clock_20160806 1470503040 Hw Hy).
  reflexivity.
Defined.

(** *** Monitoring byte *)

(** C6.  Byte 2 of the frame is 'A' exactly when the status is synced
    (timeSet), 'M' exactly when it is stale (timeNeedsSync), and a
    character that is neither 'A' nor 'M' when the time is not set; the
    frames for synced and stale agree on every byte but byte 2. *)
Theorem if482Telegram_monitoring_byte (TL : TimeLib) (status : timeStatus_t)
    (t : time_t) :
  (nth_error (if482Telegram status t) 1 = Some "A"%char
   <-> status = timeSet)
  /\ (nth_error (if482Telegram status t) 1 = Some "M"%char
      <-> status = timeNeedsSync)
  /\ (exists c, nth_error (if482Telegram timeNotSet t) 1 = Some c
                /\ c <> "A"%char /\ c <> "M"%char)
  /\ (forall i : nat,
         i <> 1%nat ->
         nth_error (if482Telegram timeSet t) i
         = nth_error (if482Telegram timeNeedsSync t) i).
Proof.
  rewrite !if482Telegram_eq. cbn [nth_error].
  repeat split.
  - destruct status; cbn; intros H; try reflexivity; discriminate H.
  - intros ->. reflexivity.
  - destruct status; cbn; intros H; try reflexivity; discriminate H.
  - intros ->. reflexivity.
  - exists "?"%char. repeat split; discriminate.
  - intros [| [| i]] Hi; [reflexivity | contradiction | reflexivity].
Qed.

Lemma if482Telegram_monitoring_byte_witness :
  5%nat <> 1%nat
  /\ nth_error (@if482Telegram clock_20160806 timeSet 1470503040) 5
     = nth_error (@if482Telegram clock_20160806 timeNeedsSync 1470503040) 5.
Proof.
  assert (5%nat <> 1%nat) as H by discriminate.
  split; [exact H |].
  exact (proj2 (proj2 (proj2
           (if482Telegram_monitoring_byte clock_20160806 timeSet
              1470503040))) 5%nat H).
Defined.

(** C9.  When the time is not set, byte 2 of the frame is '?'. *)
Theorem if482Telegram_unset_placeholder (TL : TimeLib) (t : time_t) :
  nth_error (if482Telegram timeNotSet t) 1 = Some "?"%char.
Proof. rewrite if482Telegram_eq. reflexivity. Qed.

(** *** Determinism *)

(** C7.  Two calls on the same time value and status return the same
    frame: the result depends on nothing else, in particular not on what
    the uninitialised array out holds when each call starts. *)
Theorem if482Telegram_deterministic (TL : TimeLib) (out1 out2 : list ascii)
    (status : timeStatus_t) (t : time_t) :
  String_of (snd (if482Telegram_mem out1 status t))
  = String_of (snd (if482Telegram_mem out2 status t)).
Proof. rewrite !String_of_out. reflexivity. Qed.

(** *** Buffer bounds *)

(** C10.  Whatever the time value, the two arrays keep their sizes of 14
    and 17 bytes; buf ends up holding the first 13 characters of the digit
    string and a terminator, out the first 16 characters of the frame text
    and a terminator, anything beyond being dropped; the returned frame
    has at most 16 characters. *)
Theorem if482Telegram_within_buffers (TL : TimeLib) (out0 : list ascii)
    (status : timeStatus_t) (t : time_t) :
  length out0 = 17%nat ->
  let buf := fst (if482Telegram_mem out0 status t) in
  let out := snd (if482Telegram_mem out0 status t) in
  length buf = 14%nat
  /\ length out = 17%nat
  /\ cstr buf = firstn 13 (digits_fmt t)
  /\ (length (cstr buf) <= 13)%nat
  /\ nth_error buf (length (cstr buf)) = Some NUL
  /\ cstr out
     = firstn 16 ("O"%char :: monitoring status :: "L"%char
                    :: cstr buf ++ [CR])
  /\ (length (cstr out) <= 16)%nat
  /\ nth_error out (length (cstr out)) = Some NUL
  /\ (length (String_of out) <= 16)%nat.
Proof.
  intros Hout0 buf out.
  pose proof (digits_fmt_length t) as Hlen.
  assert (length (firstn 13 (digits_fmt t)) = 13%nat) as H13
      by (rewrite length_firstn; lia).
  assert (cstr buf = firstn 13 (digits_fmt t)) as Hbuf.
  { subst buf. rewrite if482Telegram_mem_eq. cbn [fst].
    apply cstr_app_NUL, Forall_firstn, digits_fmt_nonNUL. }
  assert (cstr out = "O"%char :: monitoring status :: "L"%char
                       :: firstn 13 (digits_fmt t)) as Hcout
      by (subst out; apply (String_of_out out0 status t)).
  assert (skipn 17 out0 = []) as Hskip by (apply skipn_all2; lia).
  unfold String_of. rewrite Hcout, Hbuf. cbn [length]. rewrite H13.
  subst buf out. rewrite if482Telegram_mem_eq. cbn [fst snd].
  rewrite Hskip.
  repeat split.
  - rewrite length_app, H13. reflexivity.
  - cbn [length]. rewrite length_app, H13. reflexivity.
  - lia.
  - rewrite nth_error_app2 by lia. rewrite H13. reflexivity.
  - do 3 rewrite firstn_cons. do 3 f_equal.
    rewrite firstn_app, H13, Nat.sub_diag, firstn_0, app_nil_r.
    symmetry. apply firstn_all2. lia.
  - lia.
  - change ("O"%char :: monitoring status :: "L"%char
              :: firstn 13 (digits_fmt t) ++ [NUL])
      with (("O"%char :: monitoring status :: "L"%char
               :: firstn 13 (digits_fmt t)) ++ [NUL]).
    rewrite nth_error_app2 by (cbn [length]; lia).
    cbn [length]. rewrite H13. reflexivity.
  - lia.
Qed.

Lemma if482Telegram_within_buffers_witness :
  length (repeat "x"%char 17) = 17%nat
  /\ length (fst (@if482Telegram_mem clock_21000101 (repeat "x"%char 17)
                    timeSet 4102444800)) = 14%nat
  /\ length (snd (@if482Telegram_mem clock_21000101 (repeat "x"%char 17)
                    timeSet 4102444800)) = 17%nat.
Proof.
  assert (length (repeat "x"%char 17) = 17%nat) as H by reflexivity.
  pose proof (if482Telegram_within_buffers clock_21000101
                (repeat "x"%char 17) timeSet 4102444800 H) as W.
  cbv zeta in W.
  split; [exact H | split; [exact (proj1 W) | exact (proj1 (proj2 W))]].
Defined.

(** ** The interrupt handler and the transmit task: claims *)

Lemma deadlines_app (tr1 tr2 : list event) :
  deadlines (tr1 ++ tr2) = deadlines tr1 ++ deadlines tr2.
Proof. apply flat_map_app. Qed.

Lemma frames_app (tr1 tr2 : list event) :
  frames (tr1 ++ tr2) = frames tr1 ++ frames tr2.
Proof. apply flat_map_app. Qed.

Lemma print_ticks_app (tr1 tr2 : list event) :
  print_ticks (tr1 ++ tr2) = print_ticks tr1 ++ print_ticks tr2.
Proof. apply flat_map_app. Qed.

Section SchedulerFacts.

Context {TL : TimeLib}.
Variables (configTICK_RATE_HZ IF482_OFFSET : Z).
Variable startTime : TickType_t.

(** One turn of the loop, started with a notification pending. *)
Lemma if482_loop_iter_pending (now_ : time_t) (status : timeStatus_t)
    (w : world) :
  ucNotifyState w = true ->
  exists tick',
    (tick' = wake_deadline configTICK_RATE_HZ IF482_OFFSET startTime
               (ulNotifiedValue w)
     \/ tick' = xTickCount w)
    /\ if482_loop_iter configTICK_RATE_HZ IF482_OFFSET startTime now_
         status w
       = Some {| xTickCount := tick';
                 ulNotifiedValue := 0;
                 ucNotifyState := false;
                 trace := trace w
                   ++ [EvDelayUntil
                         (wake_deadline configTICK_RATE_HZ IF482_OFFSET
                            startTime (ulNotifiedValue w));
                       EvPrint tick' (if482Telegram status (now_ + 1))] |}.
Proof.
  intros Hp.
  unfold if482_loop_iter, xTaskNotifyWait. rewrite Hp.
  unfold vTaskDelayUntil, IF482_print.
cbn [xTickCount ulNotifiedValue ucNotifyState trace].
  fold (wake_deadline configTICK_RATE_HZ IF482_OFFSET startTime
          (ulNotifiedValue w)).
  match goal with
  | |- context [if ?b then wake_deadline _ _ _ _ else _] => destruct b
  end.
  all: eexists; split; [| rewrite <- app_assoc; cbn [app];
                           f_equal; f_equal;
                           change (Z.lxor ULONG_MAX (u32 ULONG_MAX)) with 0;
                           apply Z.land_0_r ].
  - left; reflexivity.
  - right; reflexivity.
Qed.

(** Without a pending notification the task stays blocked. *)
Lemma if482_loop_iter_blocked (now_ : time_t) (status : timeStatus_t)
    (w : world) :
  ucNotifyState w = false ->
  if482_loop_iter configTICK_RATE_HZ IF482_OFFSET startTime now_ status w
  = None.
Proof.
  intros Hp. unfold if482_loop_iter, xTaskNotifyWait. now rewrite Hp.
Qed.

End SchedulerFacts.

(** *** Delay deadline *)

(** The deadline is not the edge tick plus the offset in general: with the
    reference tick 1000, a tick rate of 1 kHz and an offset of 100 ms, the
    edge of tick 5000 gives the deadline 4100, not 5100. *)
Lemma if482_loop_deadline_not_edge_plus_offset :
  ~ (forall (TL : TimeLib) (IF482_OFFSET startTime : Z) (now_ : time_t)
            (status : timeStatus_t) (w w' : world),
        ucNotifyState w = true ->
        if482_loop_iter 1000 IF482_OFFSET startTime now_ status w = Some w' ->
        deadlines (trace w')
        = deadlines (trace w) ++ [ulNotifiedValue w + IF482_OFFSET]).
Proof.
  intros H.
  specialize (H clock_20160806 100 1000 1470503039 timeSet world_edge_5000
                _ eq_refl eq_refl).
  vm_compute in H. discriminate H.
Qed.

(** C3.  The claim is that the frame is triggered at the edge tick plus
    the offset, not earlier, once per notification.  The loop subtracts
    the reference tick from the edge tick before it asks for the delay, so
    the deadline is the offset counted from (edge tick - startTime).  With
    a tick rate of 1 kHz and an offset of 100 ms:
    - reference tick 1000, edge and turn at tick 5000: the deadline is
      4100, already past, the task does not wait and the frame goes out at
      tick 5000, not at 5100;
    - reference tick 0, same edge: the deadline is 5100 and the frame goes
      out at 5100, as claimed;
    - offset 984 ms, reference tick 3000, edges at ticks 3500 and 4500 and
      the task running one tick after each: the deadlines are 1484 and
      2484 and the frames go out at ticks 3501 and 4501, not at 4484 and
      5484. *)
Theorem if482_loop_iter_sends_at_edge :
  @if482_loop_iter clock_20160806 1000 100 1000 1470503039 timeSet
    world_edge_5000
  = Some {| xTickCount := 5000; ulNotifiedValue := 0;
            ucNotifyState := false;
            trace := [EvDelayUntil 4100;
                      EvPrint 5000
                        (list_ascii_of_string "OAL1608067170400")] |}
  /\ @if482_loop_iter clock_20160806 1000 100 0 1470503039 timeSet
       world_edge_5000
     = Some {| xTickCount := 5100; ulNotifiedValue := 0;
               ucNotifyState := false;
               trace := [EvDelayUntil 5100;
                         EvPrint 5100
                           (list_ascii_of_string "OAL1608067170400")] |}
  /\ (let w' := @run clock_20160806 1000 984 3000
                  (regular
                     [{| gap := 500; lag := 1; p_now := 1470503039;
                         p_status := timeSet |};
                      {| gap := 999; lag := 1; p_now := 1470503040;
                         p_status := timeSet |}])
                  world_idle_3000 in
      deadlines (trace w') = [1484; 2484]
      /\ print_ticks (trace w') = [3501; 4501]).
Proof.
  split; [vm_compute; reflexivity |].
  split; [vm_compute; reflexivity |].
  split; vm_compute; reflexivity.
Qed.

(** X15.  When the reference tick is 0 and a tick is a millisecond, the
    deadline is the edge tick plus the offset, as long as the sum fits 32
    bits. *)
Lemma wake_deadline_from_zero (IF482_OFFSET T : Z) :
  0 <= T -> 0 <= IF482_OFFSET -> IF482_OFFSET * 1000 < 2 ^ 32 ->
  T + IF482_OFFSET < 2 ^ 32 ->
  wake_deadline 1000 IF482_OFFSET 0 T = T + IF482_OFFSET.
Proof.
  change (2 ^ 32) with 4294967296. intros HT HO HO' Hsum.
  unfold wake_deadline, shotTime, pdMS_TO_TICKS, u32.
  change (2 ^ 32) with 4294967296.
  rewrite Z.sub_0_r.
  rewrite (Z.mod_small T), (Z.mod_small IF482_OFFSET),
    (Z.mod_small 1000) by lia.
  rewrite (Z.mod_small (IF482_OFFSET * 1000)) by lia.
  rewrite Z.div_mul by lia.
  apply Z.mod_small. lia.
Qed.

(** *** Frame transmitted *)

(** C4.  In every turn of the loop, t being the time read right after the
    notification, the frame written to the serial port is the one
    formatted for t + 1. *)
Theorem if482_loop_iter_frame (TL : TimeLib)
    (configTICK_RATE_HZ IF482_OFFSET : Z) (startTime : TickType_t)
    (t : time_t) (status : timeStatus_t) (w : world) :
  ucNotifyState w = true ->
  exists w',
    if482_loop_iter configTICK_RATE_HZ IF482_OFFSET startTime t status w
    = Some w'
    /\ frames (trace w')
       = frames (trace w) ++ [if482Telegram status (t + 1)].
Proof.
  intros Hp.
  destruct (if482_loop_iter_pending configTICK_RATE_HZ IF482_OFFSET
              startTime t status w Hp) as (tick' & _ & Hiter).
  eexists. split; [exact Hiter |]. cbn [trace].
  rewrite frames_app. reflexivity.
Qed.

Lemma if482_loop_iter_frame_witness :
  ucNotifyState world_edge_5000 = true
  /\ exists w',
      @if482_loop_iter clock_20160806 1000 100 1000 1470503039 timeSet
        world_edge_5000 = Some w'
      /\ frames (trace w') = [list_ascii_of_string "OAL1608067170400"].
Proof.
  split; [reflexivity |].
  destruct (if482_loop_iter_frame clock_20160806 1000 100 1000
              1470503039 timeSet world_edge_5000 eq_refl)
    as (w' & Hiter & Hf).
  exists w'. split; [exact Hiter | exact Hf].
Defined.

(** *** Notification slot *)

(** A pending value is not replaced by the handler: with the value 1000
    still unread, the edge of tick 2000 leaves 2040 in the slot. *)
Lemma IF482IRQ_pending_not_replaced :
  ~ (forall w : world,
        ucNotifyState w = true ->
        ulNotifiedValue (IF482IRQ w) = xTaskGetTickCountFromISR w).
Proof.
  intros H. specialize (H world_unread_1000 eq_refl).
  vm_compute in H. discriminate H.
Qed.

(** What the handler and the wait do to the slot in general: the handler
    sets the bits of the edge tick in it and marks it pending; the wait
    hands over the whole value and empties the slot. *)
Theorem IF482IRQ_sets_bits (w : world) :
  ucNotifyState (IF482IRQ w) = true
  /\ ulNotifiedValue (IF482IRQ w)
     = Z.lor (ulNotifiedValue w) (xTaskGetTickCountFromISR w)
  /\ (ulNotifiedValue w = 0 ->
      ulNotifiedValue (IF482IRQ w) = xTaskGetTickCountFromISR w)
  /\ exists w',
      xTaskNotifyWait 0 ULONG_MAX (IF482IRQ w)
      = Some (ulNotifiedValue (IF482IRQ w), w')
      /\ ulNotifiedValue w' = 0
      /\ ucNotifyState w' = false.
Proof.
  unfold IF482IRQ, xTaskNotifyFromISR, xTaskNotifyWait.
  cbn [ucNotifyState ulNotifiedValue].
  repeat split.
  - intros ->. apply Z.lor_0_l.
  - eexists. split; [reflexivity |]. cbn [ucNotifyState ulNotifiedValue].
    split; [| reflexivity].
    change (Z.lxor ULONG_MAX (u32 ULONG_MAX)) with 0. apply Z.land_0_r.
Qed.

Lemma IF482IRQ_sets_bits_witness :
  ulNotifiedValue world_idle_1000 = 0
  /\ ulNotifiedValue (IF482IRQ world_idle_1000) = 1000.
Proof.
  split; [reflexivity |].
  exact (proj1 (proj2 (proj2 (IF482IRQ_sets_bits world_idle_1000)))
           eq_refl).
Defined.

(** C8.  The claim is that an edge delivered while a value is still
    unread replaces that value by its own tick.  The handler notifies with
    eSetBits, which sets bits and replaces nothing: for every state the
    slot afterwards holds the old value or-ed with the tick.  With the edge
    of tick 1000 still unread (the state reached from an idle task at tick
    1000 by that edge and 1000 ticks without a turn), the edge of tick 2000
    leaves 2040 in the slot, which is neither tick, and 2040 is what the
    task's wait then receives as the moment of the interrupt. *)
Theorem IF482IRQ_unread_edge_combined :
  (forall w : world,
      ulNotifiedValue (IF482IRQ w)
      = Z.lor (ulNotifiedValue w) (xTaskGetTickCountFromISR w))
  /\ @run clock_20160806 1000 100 40 [AEdge; ATick 1000] world_idle_1000
     = world_unread_1000
  /\ ulNotifiedValue (IF482IRQ world_unread_1000) = 2040
  /\ xTaskNotifyWait 0 ULONG_MAX (IF482IRQ world_unread_1000)
     = Some (2040,
             {| xTickCount := 2000; ulNotifiedValue := 0;
                ucNotifyState := false; trace := [] |}).
Proof.
  split; [intros w; reflexivity |].
  repeat split; vm_compute; reflexivity.
Qed.

(** *** Schedules *)

(** X14.  Along any schedule the task never transmits more frames than
    edges have been delivered: each transmission uses up a notification,
    and an edge leaves at most one pending. *)
Lemma run_frames_le_edges (TL : TimeLib)
    (configTICK_RATE_HZ IF482_OFFSET : Z) (startTime : TickType_t)
    (acts : list action) :
  forall w : world,
    (length (frames (trace (run configTICK_RATE_HZ IF482_OFFSET startTime
                              acts w)))
     + pending_count (run configTICK_RATE_HZ IF482_OFFSET startTime acts w)
     <= length (frames (trace w)) + pending_count w + edges acts)%nat.
Proof.
  induction acts as [| a acts IH]; intros w.
  - unfold run, edges. cbn [fold_left filter length]. lia.
  - unfold run in *. cbn [fold_left].
    etransitivity; [apply IH |].
    destruct a as [n | | now_ status].
    + change (edges (ATick n :: acts)) with (edges acts). apply Nat.le_refl.
    + change (edges (AEdge :: acts)) with (S (edges acts)).
      cbn [step].
      change (trace (IF482IRQ w)) with (trace w).
      change (pending_count (IF482IRQ w)) with 1%nat.
      unfold pending_count. destruct (ucNotifyState w); lia.
    + change (edges (ATask now_ status :: acts)) with (edges acts).
      cbn [step].
      destruct (ucNotifyState w) eqn:Hp.
      * destruct (if482_loop_iter_pending configTICK_RATE_HZ IF482_OFFSET
                    startTime now_ status w Hp) as (tick' & _ & ->).
        unfold pending_count. rewrite Hp. cbn [trace ucNotifyState].
        rewrite frames_app, length_app.
        cbn [frames flat_map app length]. lia.
      * rewrite (if482_loop_iter_blocked configTICK_RATE_HZ IF482_OFFSET
                   startTime now_ status w Hp). apply Nat.le_refl.
Qed.


(** * Further properties of the formatter *)

Lemma chars_eqb_eq (a b : list ascii) : chars_eqb a b = true -> a = b.
Proof.
  unfold chars_eqb. intros H. apply String.eqb_eq in H.
  rewrite <- (list_ascii_of_string_of_list_ascii a),
    <- (list_ascii_of_string_of_list_ascii b).
  now rewrite H.
Qed.

Lemma forallb_below (P : Z -> bool) (n : nat) :
  forallb P (below n) = true ->
  forall k, 0 <= k < Z.of_nat n -> P k = true.
Proof.
  intros H k Hk. rewrite forallb_forall in H. apply H.
  unfold below. rewrite <- (Z2Nat.id k) by lia.
  apply in_map, in_seq. lia.
Qed.

Lemma digit_inj (a b : Z) :
  0 <= a < 10 -> 0 <= b < 10 -> digit a = digit b -> a = b.
Proof.
  intros Ha Hb H. apply (f_equal nat_of_ascii) in H. unfold digit in H.
  rewrite !nat_ascii_embedding in H by lia. lia.
Qed.

Lemma two_digits_inj (a b : Z) :
  0 <= a < 100 -> 0 <= b < 100 -> two_digits a = two_digits b -> a = b.
Proof.
  intros Ha Hb H. unfold two_digits in H.
  injection H as Hq Hr.
  apply digit_inj in Hq; [| Z.div_mod_to_equations; lia ..].
  apply digit_inj in Hr; [| Z.div_mod_to_equations; lia ..].
  Z.div_mod_to_equations; lia.
Qed.

Lemma utoa_rec_digits (fuel : nat) :
  forall n acc, Forall is_digit acc -> Forall is_digit (utoa_rec fuel n acc).
Proof.
  induction fuel as [| f IH]; intros n acc Hacc; simpl; [assumption |].
  assert (Forall is_digit (digit (n mod 10) :: acc)) as Hacc'.
  { constructor; [| assumption].
    apply digit_cases. apply Z.mod_pos_bound. lia. }
  destruct (n / 10 =? 0); [assumption | apply IH; assumption].
Qed.

Lemma fmt_u_zero_digits (width : nat) (v : Z) :
  Forall is_digit (fmt_u "0" width v).
Proof.
  unfold fmt_u. apply Forall_app. split.
  - apply Forall_forall. intros c Hc. apply repeat_spec in Hc. subst c.
    unfold is_digit. cbn. tauto.
  - apply utoa_rec_digits. constructor.
Qed.

(** [%1u] needs no padding: a number has at least one digit. *)
Lemma fmt_u_width_1 (pad : ascii) (v : Z) :
  fmt_u pad 1 v = utoa (v mod 2 ^ 32).
Proof.
  unfold fmt_u. pose proof (utoa_length (v mod 2 ^ 32)) as H.
  replace (1 - length (utoa (v mod 2 ^ 32)))%nat with 0%nat by lia.
  reflexivity.
Qed.

Lemma digits_fmt_digits {TL : TimeLib} (t : time_t) :
  Forall is_digit (digits_fmt t).
Proof.
  unfold digits_fmt. rewrite fmt_u_width_1.
  repeat (apply Forall_app; split; [apply fmt_u_zero_digits |]).
  apply Forall_app; split; [apply utoa_rec_digits; constructor |].
  repeat (apply Forall_app; split; [apply fmt_u_zero_digits |]).
  apply fmt_u_zero_digits.
Qed.

Lemma bytes_4_16_eq {TL : TimeLib} (status : timeStatus_t) (t : time_t) :
  bytes_4_16 (if482Telegram status t) = firstn 13 (digits_fmt t).
Proof.
  rewrite if482Telegram_eq. unfold bytes_4_16.
  cbn [skipn]. apply firstn_firstn.
Qed.

(** X1.  Whatever the time value and the status, bytes 4 to 16 of the
    frame are thirteen decimal digits (so never the weekday sentinel 'F'
    and never a blank), and no byte of the frame is a carriage return. *)
Theorem if482Telegram_only_digits (TL : TimeLib) (status : timeStatus_t)
    (t : time_t) :
  length (bytes_4_16 (if482Telegram status t)) = 13%nat
  /\ Forall is_digit (bytes_4_16 (if482Telegram status t))
  /\ ~ In CR (if482Telegram status t).
Proof.
  pose proof (digits_fmt_length t) as Hlen.
  pose proof (Forall_firstn is_digit 13 _ (digits_fmt_digits t)) as Hd.
  rewrite bytes_4_16_eq. split; [rewrite length_firstn; lia |].
  split; [exact Hd |].
  rewrite if482Telegram_eq. cbn [In].
  intros [H | [H | [H | H]]]; try discriminate H.
  - destruct status; discriminate H.
  - rewrite Forall_forall in Hd. specialize (Hd _ H).
    unfold is_digit in Hd. cbn in Hd.
    repeat (destruct Hd as [Hd | Hd]; [discriminate Hd |]). contradiction.
Qed.

(** X2.  The status can be read back from the frame: two frames that are
    equal were formatted under the same status, whatever the times. *)
Theorem if482Telegram_status_inj (TL : TimeLib) (s1 s2 : timeStatus_t)
    (t1 t2 : time_t) :
  if482Telegram s1 t1 = if482Telegram s2 t2 -> s1 = s2.
Proof.
  rewrite !if482Telegram_eq. intros H. injection H as Hm _.
  destruct s1, s2; try reflexivity; discriminate Hm.
Qed.

Lemma if482Telegram_status_inj_witness :
  @if482Telegram clock_20160806 timeSet 1470503040
  = @if482Telegram clock_20160806 timeSet (1470503040 + 86400)
  /\ timeSet = timeSet.
Proof.
  assert (@if482Telegram clock_20160806 timeSet 1470503040
          = @if482Telegram clock_20160806 timeSet (1470503040 + 86400))
    as H by reflexivity.
  split; [exact H |].
  exact (if482Telegram_status_inj clock_20160806 timeSet timeSet
           1470503040 (1470503040 + 86400) H).
Defined.

Lemma if482Telegram_digit_fields_gen {TL : TimeLib} (status : timeStatus_t)
    (t : time_t) :
  WallClock t -> year t < 2100 ->
  bytes_4_16 (if482Telegram status t) = bcd_fields t.
Proof.
  intros Hw Hy. rewrite bytes_4_16_eq, (digits_fmt_bcd t Hw Hy).
  apply firstn_all2. unfold bcd_fields, two_digits, one_digit. cbn. lia.
Qed.

(** X3.  Between 2000 and 2099 the frame determines the time: two
    WallClock values of that range whose frames are equal have the same
    year, month, day, weekday, hour, minute and second. *)
Theorem if482Telegram_fields_inj (TL : TimeLib) (s1 s2 : timeStatus_t)
    (t1 t2 : time_t) :
  WallClock t1 -> year t1 < 2100 ->
  WallClock t2 -> year t2 < 2100 ->
  if482Telegram s1 t1 = if482Telegram s2 t2 ->
  year t1 = year t2 /\ month t1 = month t2 /\ day t1 = day t2
  /\ weekday t1 = weekday t2 /\ hour t1 = hour t2
  /\ minute t1 = minute t2 /\ second t1 = second t2.
Proof.
  intros Hw1 Hy1 Hw2 Hy2 H.
  assert (bcd_fields t1 = bcd_fields t2) as Hb.
  { rewrite <- (if482Telegram_digit_fields_gen s1 t1 Hw1 Hy1),
      <- (if482Telegram_digit_fields_gen s2 t2 Hw2 Hy2).
    now rewrite H. }
  destruct Hw1 as (Hy1' & Hmo1 & Hd1 & Hwd1 & Hh1 & Hmi1 & Hs1).
  destruct Hw2 as (Hy2' & Hmo2 & Hd2 & Hwd2 & Hh2 & Hmi2 & Hs2).
  unfold bcd_fields, one_digit in Hb.
  assert (forall a b x y, two_digits a ++ x = two_digits b ++ y ->
                          two_digits a = two_digits b /\ x = y) as Hsplit.
  { intros a b x y E. unfold two_digits in *. cbn [app] in E.
    injection E as E1 E2 E3. split; congruence. }
  apply Hsplit in Hb as (Ey & Hb). apply Hsplit in Hb as (Emo & Hb).
  apply Hsplit in Hb as (Ed & Hb).
  assert (forall (a b : ascii) x y, [a] ++ x = [b] ++ y -> a = b /\ x = y)
    as Hcons by (intros a b x y E; injection E; auto).
  apply Hcons in Hb as (Ewd & Hb).
  apply Hsplit in Hb as (Eh & Hb). apply Hsplit in Hb as (Emi & Es).
  apply two_digits_inj in Ey; [| Z.div_mod_to_equations; lia ..].
  apply two_digits_inj in Emo; [| lia ..].
  apply two_digits_inj in Ed; [| lia ..].
  apply digit_inj in Ewd; [| lia ..].
  apply two_digits_inj in Eh; [| lia ..].
  apply two_digits_inj in Emi; [| lia ..].
  apply two_digits_inj in Es; [| lia ..].
  repeat split; try assumption.
  Z.div_mod_to_equations; lia.
Qed.

Lemma if482Telegram_fields_inj_witness :
  @WallClock clock_20160806 1470503040
  /\ @year clock_20160806 1470503040 < 2100
  /\ @WallClock clock_20160806 (1470503040 + 86400)
  /\ @year clock_20160806 (1470503040 + 86400) < 2100
  /\ @if482Telegram clock_20160806 timeSet 1470503040
     = @if482Telegram clock_20160806 timeSet (1470503040 + 86400)
  /\ @minute clock_20160806 1470503040
     = @minute clock_20160806 (1470503040 + 86400).
Proof.
  assert (@WallClock clock_20160806 1470503040) as Hw1
      by (unfold WallClock; cbn; lia).
  assert (@year clock_20160806 1470503040 < 2100) as Hy1 by (cbn; lia).
  assert (@WallClock clock_20160806 (1470503040 + 86400)) as Hw2
      by (unfold WallClock; cbn; lia).
  assert (@year clock_20160806 (1470503040 + 86400) < 2100) as Hy2
      by (cbn; lia).
  assert (@if482Telegram clock_20160806 timeSet 1470503040
          = @if482Telegram clock_20160806 timeSet (1470503040 + 86400))
    as Hf by reflexivity.
  repeat (split; [assumption |]).
  pose proof (if482Telegram_fields_inj clock_20160806 timeSet timeSet
                1470503040 (1470503040 + 86400) Hw1 Hy1 Hw2 Hy2 Hf) as W.
  exact (proj1 (proj2 (proj2 (proj2 (proj2 (proj2 W)))))).
Defined.

(** *** Years outside 2000-2099 *)

Lemma utoa_wrapped (k : Z) :
  0 <= k < 100 ->
  utoa (4294967200 + k) = list_ascii_of_string "42949672" ++ two_digits k.
Proof.
  intros Hk. apply chars_eqb_eq.
  apply (forallb_below
           (fun k => chars_eqb (utoa (4294967200 + k))
                       (list_ascii_of_string "42949672" ++ two_digits k))
           100); [vm_compute; reflexivity | lia].
Qed.

Lemma utoa_three_digits (n : Z) :
  100 <= n < 1000 -> utoa n = three_digits n.
Proof.
  intros Hn.
  pose proof (forallb_below
                (fun k => (k <? 100) || chars_eqb (utoa k) (three_digits k))
                1000 ltac:(vm_compute; reflexivity) n ltac:(lia)) as H.
  cbv beta in H. apply orb_true_iff in H. destruct H as [H | H].
  - apply Z.ltb_lt in H. lia.
  - now apply chars_eqb_eq.
Qed.

(** X4.  Before the year 2000 the difference year - 2000 is negative and
    is printed as a 32-bit unsigned number of ten digits: for a year from
    1970 to 1999 (the clock starts in 1970 when it was never set) bytes 4
    to 16 read 42949672, the two digits of year - 1904, the month, and the
    tens digit of the day; weekday, hour, minute and second are not in the
    frame at all. *)
Theorem if482Telegram_before_2000 (TL : TimeLib) (status : timeStatus_t)
    (t : time_t) :
  1970 <= year t < 2000 ->
  0 <= month t < 100 ->
  0 <= day t < 100 ->
  bytes_4_16 (if482Telegram status t)
  = list_ascii_of_string "42949672" ++ two_digits (year t - 1904)
      ++ two_digits (month t) ++ [digit (day t / 10)].
Proof.
  intros Hy Hmo Hd. rewrite bytes_4_16_eq. unfold digits_fmt.
  assert (fmt_u "0" 2 (year t - 2000)
          = list_ascii_of_string "42949672" ++ two_digits (year t - 1904))
    as ->.
  { unfold fmt_u.
    assert ((year t - 2000) mod 2 ^ 32 = 4294967200 + (year t - 1904)) as ->
        by (change (2 ^ 32) with 4294967296; symmetry;
            apply Z.mod_unique with (-1); lia).
    rewrite utoa_wrapped by lia. reflexivity. }
  rewrite !fmt_u_two_digits by lia.
  unfold two_digits. cbn [list_ascii_of_string app firstn]. reflexivity.
Qed.

(** X5.  From 2100 on the year field takes three places and pushes the
    rest to the right: for a WallClock value with a year from 2100 to 2999
    bytes 4 to 16 are the three digits of year - 2000, then month, day,
    weekday, hour and minute, then the tens digit of the second only. *)
Theorem if482Telegram_from_2100 (TL : TimeLib) (status : timeStatus_t)
    (t : time_t) :
  WallClock t ->
  2100 <= year t < 3000 ->
  bytes_4_16 (if482Telegram status t)
  = three_digits (year t - 2000) ++ two_digits (month t)
      ++ two_digits (day t) ++ one_digit (weekday t)
      ++ two_digits (hour t) ++ two_digits (minute t)
      ++ [digit (second t / 10)].
Proof.
  intros (_ & Hmo & Hd & Hwd & Hh & Hmi & Hs) Hy.
  rewrite bytes_4_16_eq. unfold digits_fmt.
  assert (fmt_u "0" 2 (year t - 2000) = three_digits (year t - 2000)) as ->.
  { unfold fmt_u.
    rewrite (Z.mod_small (year t - 2000))
      by (change (2 ^ 32) with 4294967296; lia).
    rewrite utoa_three_digits by lia. reflexivity. }
  rewrite !fmt_u_two_digits, fmt_u_one_digit by lia.
  unfold three_digits, two_digits, one_digit.
  cbn [app firstn]. reflexivity.
Qed.

Lemma if482Telegram_before_2000_witness :
  1970 <= @year clock_19700101 3600 < 2000
  /\ 0 <= @month clock_19700101 3600 < 100
  /\ 0 <= @day clock_19700101 3600 < 100
  /\ bytes_4_16 (@if482Telegram clock_19700101 timeNotSet 3600)
     = list_ascii_of_string "4294967266010".
Proof.
  assert (1970 <= @year clock_19700101 3600 < 2000) as Hy by (cbn; lia).
  assert (0 <= @month clock_19700101 3600 < 100) as Hmo by (cbn; lia).
  assert (0 <= @day clock_19700101 3600 < 100) as Hd by (cbn; lia).
  repeat (split; [assumption |]).
  rewrite (if482Telegram_before_2000 clock_19700101 timeNotSet 3600
             Hy Hmo Hd).
  reflexivity.
Defined.

Lemma if482Telegram_from_2100_witness :
  @WallClock clock_21000101 4102444800
  /\ 2100 <= @year clock_21000101 4102444800 < 3000
  /\ bytes_4_16 (@if482Telegram clock_21000101 timeSet 4102444800)
     = list_ascii_of_string "1000101600000".
Proof.
  assert (@WallClock clock_21000101 4102444800) as Hw
      by (unfold WallClock; cbn; lia).
  assert (2100 <= @year clock_21000101 4102444800 < 3000) as Hy
      by (cbn; lia).
  repeat (split; [assumption |]).
  rewrite (if482Telegram_from_2100 clock_21000101 timeSet 4102444800
             Hw Hy).
  reflexivity.
Defined.


(** * Further properties of the task and the interrupt handler *)

Lemma shotTime_nonneg (configTICK_RATE_HZ IF482_OFFSET : Z) :
  0 <= shotTime configTICK_RATE_HZ IF482_OFFSET.
Proof.
  unfold shotTime, pdMS_TO_TICKS, u32. apply Z.div_pos; [| lia].
  apply Z.mod_pos_bound. change (2 ^ 32) with 4294967296. lia.
Qed.

Section DelayFacts.

Context {TL : TimeLib}.
Variables (configTICK_RATE_HZ IF482_OFFSET : Z).
Variable startTime : TickType_t.

(** The turn of the loop with the delay decision made explicit. *)
Lemma if482_loop_iter_tick (now_ : time_t) (status : timeStatus_t)
    (w : world) (tick' : TickType_t) :
  ucNotifyState w = true ->
  snd (vTaskDelayUntil (u32 (ulNotifiedValue w - startTime))
         (shotTime configTICK_RATE_HZ IF482_OFFSET)
         {| xTickCount := xTickCount w; ulNotifiedValue := 0;
            ucNotifyState := false; trace := trace w |})
  = {| xTickCount := tick'; ulNotifiedValue := 0; ucNotifyState := false;
       trace := trace w
         ++ [EvDelayUntil
               (wake_deadline configTICK_RATE_HZ IF482_OFFSET startTime
                  (ulNotifiedValue w))] |} ->
  if482_loop_iter configTICK_RATE_HZ IF482_OFFSET startTime now_ status w
  = Some {| xTickCount := tick'; ulNotifiedValue := 0;
            ucNotifyState := false;
            trace := trace w
              ++ [EvDelayUntil
                    (wake_deadline configTICK_RATE_HZ IF482_OFFSET
                       startTime (ulNotifiedValue w));
                  EvPrint tick' (if482Telegram status (now_ + 1))] |}.
Proof.
  intros Hp Hd.
  unfold if482_loop_iter, xTaskNotifyWait. rewrite Hp.
  change (Z.lxor ULONG_MAX (u32 ULONG_MAX)) with 0. rewrite Z.land_0_r.
  destruct (vTaskDelayUntil _ _ _) as [d w2] eqn:E. cbn [snd] in Hd.
  subst w2. unfold IF482_print. cbn [xTickCount ulNotifiedValue
                                      ucNotifyState trace].
  rewrite <- app_assoc. reflexivity.
Qed.

End DelayFacts.

Lemma u32_small (z : Z) : 0 <= z < 2 ^ 32 -> u32 z = z.
Proof. intros H. unfold u32. now apply Z.mod_small. Qed.

(** *** When the offset takes effect *)

(** X6.  Once the reference tick is at least the offset, the delay never
    waits: when a turn starts at or after the edge (no counter wrap), the
    deadline lies in the past, the task is not delayed and the frame is
    written at the very tick the turn starts, whatever the offset. *)
Theorem if482_loop_iter_offset_ignored (TL : TimeLib)
    (configTICK_RATE_HZ IF482_OFFSET : Z) (startTime : TickType_t)
    (now_ : time_t) (status : timeStatus_t) (w : world) :
  ucNotifyState w = true ->
  shotTime configTICK_RATE_HZ IF482_OFFSET <= startTime ->
  startTime <= ulNotifiedValue w ->
  ulNotifiedValue w <= xTickCount w ->
  xTickCount w < 2 ^ 32 ->
  exists w',
    if482_loop_iter configTICK_RATE_HZ IF482_OFFSET startTime now_ status w
    = Some w'
    /\ xTickCount w' = xTickCount w
    /\ print_ticks (trace w') = print_ticks (trace w) ++ [xTickCount w].
Proof.
  intros Hp Hs Hst HT Hn.
  pose proof (shotTime_nonneg configTICK_RATE_HZ IF482_OFFSET) as Hs0.
  eexists. split.
  - apply if482_loop_iter_tick with (tick' := xTickCount w); [exact Hp |].
    unfold vTaskDelayUntil, wake_deadline.
    cbn [snd xTickCount ulNotifiedValue ucNotifyState trace].
    rewrite (u32_small (ulNotifiedValue w - startTime)) by lia.
    rewrite (u32_small (ulNotifiedValue w - startTime + _)) by lia.
    rewrite (proj2 (Z.ltb_ge (xTickCount w) (ulNotifiedValue w - startTime)))
      by lia.
    rewrite (proj2 (Z.ltb_ge _ (ulNotifiedValue w - startTime))) by lia.
    rewrite (proj2 (Z.ltb_ge (xTickCount w) _)) by lia.
    reflexivity.
  - cbn [xTickCount trace]. rewrite print_ticks_app. split; reflexivity.
Qed.

Lemma if482_loop_iter_offset_ignored_witness :
  ucNotifyState world_edge_5000 = true
  /\ shotTime 1000 100 <= 1000
  /\ 1000 <= ulNotifiedValue world_edge_5000
  /\ ulNotifiedValue world_edge_5000 <= xTickCount world_edge_5000
  /\ xTickCount world_edge_5000 < 2 ^ 32
  /\ exists w',
      @if482_loop_iter clock_20160806 1000 100 1000 1470503039 timeSet
        world_edge_5000 = Some w'
      /\ print_ticks (trace w') = [5000].
Proof.
  assert (shotTime 1000 100 <= 1000) as Hs by (vm_compute; discriminate).
  assert (1000 <= ulNotifiedValue world_edge_5000) as Hst
      by (vm_compute; discriminate).
  assert (ulNotifiedValue world_edge_5000 <= xTickCount world_edge_5000)
    as HT by (vm_compute; discriminate).
  assert (xTickCount world_edge_5000 < 2 ^ 32) as Hn by reflexivity.
  split; [reflexivity |]. repeat (split; [assumption |]).
  destruct (if482_loop_iter_offset_ignored clock_20160806 1000 100 1000
              1470503039 timeSet world_edge_5000 eq_refl Hs Hst HT Hn)
    as (w' & Hiter & _ & Hpt).
  exists w'. split; [exact Hiter | exact Hpt].
Defined.

(** X7.  While the reference tick is smaller than the offset the delay
    does wait: when a turn starts at or after the edge tick T and before
    T - startTime + shotTime (no wrap), the frame is written exactly at
    tick T - startTime + shotTime, that is shotTime - startTime ticks after
    the edge and independently of how late the turn started. *)
Theorem if482_loop_iter_delayed (TL : TimeLib)
    (configTICK_RATE_HZ IF482_OFFSET : Z) (startTime : TickType_t)
    (now_ : time_t) (status : timeStatus_t) (w : world) :
  ucNotifyState w = true ->
  0 <= startTime <= ulNotifiedValue w ->
  ulNotifiedValue w <= xTickCount w ->
  xTickCount w
  < ulNotifiedValue w - startTime + shotTime configTICK_RATE_HZ IF482_OFFSET ->
  ulNotifiedValue w - startTime + shotTime configTICK_RATE_HZ IF482_OFFSET
  < 2 ^ 32 ->
  exists w',
    if482_loop_iter configTICK_RATE_HZ IF482_OFFSET startTime now_ status w
    = Some w'
    /\ xTickCount w'
       = ulNotifiedValue w - startTime
         + shotTime configTICK_RATE_HZ IF482_OFFSET
    /\ print_ticks (trace w')
       = print_ticks (trace w)
           ++ [ulNotifiedValue w - startTime
               + shotTime configTICK_RATE_HZ IF482_OFFSET].
Proof.
  intros Hp Hst HT Hn Hw.
  pose proof (shotTime_nonneg configTICK_RATE_HZ IF482_OFFSET) as Hs0.
  eexists. split.
  - apply if482_loop_iter_tick
      with (tick' := ulNotifiedValue w - startTime
                     + shotTime configTICK_RATE_HZ IF482_OFFSET);
      [exact Hp |].
    unfold vTaskDelayUntil, wake_deadline.
    cbn [snd xTickCount ulNotifiedValue ucNotifyState trace].
    rewrite (u32_small (ulNotifiedValue w - startTime)) by lia.
    rewrite (u32_small (ulNotifiedValue w - startTime + _)) by lia.
    rewrite (proj2 (Z.ltb_ge (xTickCount w) (ulNotifiedValue w - startTime)))
      by lia.
    rewrite (proj2 (Z.ltb_ge _ (ulNotifiedValue w - startTime))) by lia.
    rewrite (proj2 (Z.ltb_lt (xTickCount w) _)) by lia.
    reflexivity.
  - cbn [xTickCount trace]. rewrite print_ticks_app. split; reflexivity.
Qed.

Lemma if482_loop_iter_delayed_witness :
  ucNotifyState world_edge_5000 = true
  /\ 0 <= 40 <= ulNotifiedValue world_edge_5000
  /\ ulNotifiedValue world_edge_5000 <= xTickCount world_edge_5000
  /\ xTickCount world_edge_5000
     < ulNotifiedValue world_edge_5000 - 40 + shotTime 1000 100
  /\ ulNotifiedValue world_edge_5000 - 40 + shotTime 1000 100 < 2 ^ 32
  /\ exists w',
      @if482_loop_iter clock_20160806 1000 100 40 1470503039 timeSet
        world_edge_5000 = Some w'
      /\ print_ticks (trace w') = print_ticks [] ++ [5060].
Proof.
  assert (0 <= 40 <= ulNotifiedValue world_edge_5000) as Hst
      by (split; vm_compute; discriminate).
  assert (ulNotifiedValue world_edge_5000 <= xTickCount world_edge_5000)
    as HT by (vm_compute; discriminate).
  assert (xTickCount world_edge_5000
          < ulNotifiedValue world_edge_5000 - 40 + shotTime 1000 100)
    as Hn by reflexivity.
  assert (ulNotifiedValue world_edge_5000 - 40 + shotTime 1000 100
          < 2 ^ 32) as Hw by reflexivity.
  split; [reflexivity |]. repeat (split; [assumption |]).
  destruct (if482_loop_iter_delayed clock_20160806 1000 100 40
              1470503039 timeSet world_edge_5000 eq_refl Hst HT Hn Hw)
    as (w' & Hiter & _ & Hpt).
  exists w'. split; [exact Hiter | exact Hpt].
Defined.

(** *** Schedules of edges and turns *)

Section ScheduleFacts.

Context {TL : TimeLib}.
Variables (configTICK_RATE_HZ IF482_OFFSET : Z).
Variable startTime : TickType_t.

Lemma run_app (acts1 acts2 : list action) (w : world) :
  run configTICK_RATE_HZ IF482_OFFSET startTime (acts1 ++ acts2) w
  = run configTICK_RATE_HZ IF482_OFFSET startTime acts2
      (run configTICK_RATE_HZ IF482_OFFSET startTime acts1 w).
Proof. unfold run. apply fold_left_app. Qed.

(** An edge on an empty slot, some ticks, then one turn. *)
Lemma edge_lag_turn (n : Z) (now_ : time_t) (status : timeStatus_t)
    (w : world) :
  ulNotifiedValue w = 0 ->
  exists tick',
    run configTICK_RATE_HZ IF482_OFFSET startTime
      [AEdge; ATick n; ATask now_ status] w
    = {| xTickCount := tick'; ulNotifiedValue := 0; ucNotifyState := false;
         trace := trace w
           ++ [EvDelayUntil
                 (wake_deadline configTICK_RATE_HZ IF482_OFFSET startTime
                    (xTickCount w));
               EvPrint tick' (if482Telegram status (now_ + 1))] |}.
Proof.
  intros H0. unfold run. cbn [fold_left step].
  match goal with
  | |- context [if482_loop_iter _ _ _ _ _ ?W] =>
      destruct (if482_loop_iter_pending configTICK_RATE_HZ IF482_OFFSET
                  startTime now_ status W eq_refl) as (tick' & _ & ->)
  end.
  exists tick'.
  unfold IF482IRQ, xTaskNotifyFromISR, xTaskGetTickCountFromISR.
  cbn [xTickCount ulNotifiedValue ucNotifyState trace].
  rewrite H0, Z.lor_0_l. reflexivity.
Qed.

(** Without a turn of the task nothing is observed, and a notification is
    pending afterwards iff one was pending before or an edge came. *)
Lemma run_no_task_state (acts : list action) :
  forall w : world,
    no_task acts = true ->
    trace (run configTICK_RATE_HZ IF482_OFFSET startTime acts w) = trace w
    /\ ucNotifyState (run configTICK_RATE_HZ IF482_OFFSET startTime acts w)
       = ucNotifyState w || (0 <? edges acts)%nat.
Proof.
  induction acts as [| a acts IH]; intros w Hnt.
  - cbn. now rewrite orb_false_r.
  - unfold no_task in Hnt. cbn [forallb] in Hnt.
    apply andb_true_iff in Hnt as [Ha Hnt].
    unfold run in *. cbn [fold_left].
    destruct (IH (step configTICK_RATE_HZ IF482_OFFSET startTime w a) Hnt)
      as [Htr Hst].
    rewrite Htr, Hst.
    destruct a as [n | | now_ status]; [| | discriminate Ha].
    + cbn [step trace ucNotifyState].
      change (edges (ATick n :: acts)) with (edges acts). auto.
    + change (edges (AEdge :: acts)) with (S (edges acts)).
      cbn [step]. unfold IF482IRQ, xTaskNotifyFromISR.
      cbn [trace ucNotifyState Nat.ltb Nat.leb].
      split; [reflexivity |]. now rewrite orb_true_r.
Qed.

(** With no edge and nothing pending every turn of the task blocks. *)
Lemma run_no_edge_state (acts : list action) :
  forall w : world,
    edges acts = 0%nat ->
    ucNotifyState w = false ->
    trace (run configTICK_RATE_HZ IF482_OFFSET startTime acts w) = trace w
    /\ ucNotifyState (run configTICK_RATE_HZ IF482_OFFSET startTime acts w)
       = false.
Proof.
  induction acts as [| a acts IH]; intros w He Hp; [now split |].
  unfold run in *. cbn [fold_left].
  destruct a as [n | | now_ status].
  - change (edges (ATick n :: acts)) with (edges acts) in He.
    apply (IH (step configTICK_RATE_HZ IF482_OFFSET startTime w (ATick n))
             He Hp).
  - discriminate He.
  - change (edges (ATask now_ status :: acts)) with (edges acts) in He.
    cbn [step].
    rewrite (if482_loop_iter_blocked configTICK_RATE_HZ IF482_OFFSET
               startTime now_ status w Hp).
    apply (IH _ He Hp).
Qed.

End ScheduleFacts.

(** X8.  The deadline is taken from the tick of the edge, not from the
    moment the task gets to run: when the edge finds the slot empty and
    the task takes its turn n ticks later, the deadline asked for is
    (edge tick - startTime) + shotTime in tick arithmetic, one frame is
    sent, and the slot is empty again afterwards. *)
Theorem edge_then_turn (TL : TimeLib) (configTICK_RATE_HZ IF482_OFFSET : Z)
    (startTime : TickType_t) (n : Z) (now_ : time_t)
    (status : timeStatus_t) (w : world) :
  ulNotifiedValue w = 0 ->
  let w' := run configTICK_RATE_HZ IF482_OFFSET startTime
              [AEdge; ATick n; ATask now_ status] w in
  deadlines (trace w')
  = deadlines (trace w)
      ++ [u32 (u32 (xTickCount w - startTime)
               + shotTime configTICK_RATE_HZ IF482_OFFSET)]
  /\ frames (trace w')
     = frames (trace w) ++ [if482Telegram status (now_ + 1)]
  /\ ulNotifiedValue w' = 0
  /\ ucNotifyState w' = false.
Proof.
  intros H0 w'. subst w'.
  destruct (edge_lag_turn configTICK_RATE_HZ IF482_OFFSET startTime n now_
              status w H0) as (tick' & ->).
  cbn [trace ulNotifiedValue ucNotifyState].
  rewrite deadlines_app, frames_app. repeat split; reflexivity.
Qed.

Lemma edge_then_turn_witness :
  ulNotifiedValue world_idle_1000 = 0
  /\ deadlines
       (trace (@run clock_20160806 1000 100 40
                 [AEdge; ATick 7; ATask 1470503039 timeSet]
                 world_idle_1000))
     = deadlines (trace world_idle_1000)
         ++ [u32 (u32 (xTickCount world_idle_1000 - 40)
                  + shotTime 1000 100)].
Proof.
  split; [reflexivity |].
  exact (proj1 (edge_then_turn clock_20160806 1000 100 40 7 1470503039
                  timeSet world_idle_1000 eq_refl)).
Defined.

(** X9.  Edges that arrive while the task takes no turn are merged: after
    any run of ticks and edges with at least one edge, the next turn sends
    exactly one frame, the one for the time it reads plus one second, and
    leaves nothing pending. *)
Theorem run_burst_one_frame (TL : TimeLib)
    (configTICK_RATE_HZ IF482_OFFSET : Z) (startTime : TickType_t)
    (acts : list action) (now_ : time_t) (status : timeStatus_t)
    (w : world) :
  no_task acts = true ->
  (0 < edges acts)%nat ->
  let w' := run configTICK_RATE_HZ IF482_OFFSET startTime
              (acts ++ [ATask now_ status]) w in
  frames (trace w') = frames (trace w) ++ [if482Telegram status (now_ + 1)]
  /\ ucNotifyState w' = false.
Proof.
  intros Hnt He w'. subst w'. rewrite run_app.
  destruct (run_no_task_state configTICK_RATE_HZ IF482_OFFSET startTime
              acts w Hnt) as [Htr Hst].
  assert (ucNotifyState
            (run configTICK_RATE_HZ IF482_OFFSET startTime acts w) = true)
    as Hp.
  { rewrite Hst. apply orb_true_iff. right. apply Nat.ltb_lt. exact He. }
  set (W := run configTICK_RATE_HZ IF482_OFFSET startTime acts w) in *.
  unfold run. cbn [fold_left step].
  destruct (if482_loop_iter_pending configTICK_RATE_HZ IF482_OFFSET
              startTime now_ status W Hp) as (tick' & _ & ->).
  cbn [trace ucNotifyState]. rewrite Htr, frames_app.
  split; reflexivity.
Qed.

Lemma run_burst_one_frame_witness :
  no_task [AEdge; ATick 1000; AEdge] = true
  /\ (0 < edges [AEdge; ATick 1000; AEdge])%nat
  /\ frames
       (trace (@run clock_20160806 1000 100 40
                 ([AEdge; ATick 1000; AEdge] ++ [ATask 1470503039 timeSet])
                 world_idle_1000))
     = frames (trace world_idle_1000)
         ++ [@if482Telegram clock_20160806 timeSet (1470503039 + 1)].
Proof.
  assert (no_task [AEdge; ATick 1000; AEdge] = true) as Hnt by reflexivity.
  assert (0 < edges [AEdge; ATick 1000; AEdge])%nat as He
      by (vm_compute; lia).
  split; [exact Hnt | split; [exact He |]].
  exact (proj1 (run_burst_one_frame clock_20160806 1000 100 40
                  [AEdge; ATick 1000; AEdge] 1470503039 timeSet
                  world_idle_1000 Hnt He)).
Defined.

(** X10.  Without the 1 Hz signal the task is stalled: along any schedule
    that has no edge, started with nothing pending, no delay is asked for
    and no frame is sent, however many turns the task is given. *)
Theorem run_no_edge_silent (TL : TimeLib)
    (configTICK_RATE_HZ IF482_OFFSET : Z) (startTime : TickType_t)
    (acts : list action) (w : world) :
  edges acts = 0%nat ->
  ucNotifyState w = false ->
  trace (run configTICK_RATE_HZ IF482_OFFSET startTime acts w) = trace w.
Proof.
  intros He Hp.
  exact (proj1 (run_no_edge_state configTICK_RATE_HZ IF482_OFFSET startTime
                  acts w He Hp)).
Qed.

Lemma run_no_edge_silent_witness :
  edges [ATask 1470503039 timeSet; ATick 1000; ATask 1470503040 timeSet]
  = 0%nat
  /\ ucNotifyState world_idle_1000 = false
  /\ trace (@run clock_20160806 1000 100 40
              [ATask 1470503039 timeSet; ATick 1000;
               ATask 1470503040 timeSet] world_idle_1000)
     = trace world_idle_1000.
Proof.
  split; [reflexivity | split; [reflexivity |]].
  exact (run_no_edge_silent clock_20160806 1000 100 40
           [ATask 1470503039 timeSet; ATick 1000; ATask 1470503040 timeSet]
           world_idle_1000 eq_refl eq_refl).
Defined.

(** X11.  In regular operation, each period being some ticks, an edge,
    some ticks and one turn of the task, started with an empty slot, the
    frames sent are, in order, the frames for the time read in each turn
    plus one second, one per period; one delay is asked for per period and
    the slot is empty at the end. *)
Theorem run_regular (TL : TimeLib) (configTICK_RATE_HZ IF482_OFFSET : Z)
    (startTime : TickType_t) (ps : list period) :
  forall w : world,
    ulNotifiedValue w = 0 ->
    let w' := run configTICK_RATE_HZ IF482_OFFSET startTime (regular ps) w in
    frames (trace w')
    = frames (trace w)
        ++ map (fun p => if482Telegram (p_status p) (p_now p + 1)) ps
    /\ length (deadlines (trace w'))
       = (length (deadlines (trace w)) + length ps)%nat
    /\ ulNotifiedValue w' = 0.
Proof.
  induction ps as [| p ps IH]; intros w H0 w'; subst w'.
  - cbn. rewrite app_nil_r. repeat split; [lia | exact H0].
  - cbn [regular flat_map]. fold (regular ps). rewrite run_app.
    unfold period_actions.
    change (run configTICK_RATE_HZ IF482_OFFSET startTime
              [ATick (gap p); AEdge; ATick (lag p);
               ATask (p_now p) (p_status p)] w)
      with (run configTICK_RATE_HZ IF482_OFFSET startTime
              [AEdge; ATick (lag p); ATask (p_now p) (p_status p)]
              (step configTICK_RATE_HZ IF482_OFFSET startTime w
                 (ATick (gap p)))).
    destruct (edge_lag_turn configTICK_RATE_HZ IF482_OFFSET startTime
                (lag p) (p_now p) (p_status p)
                (step configTICK_RATE_HZ IF482_OFFSET startTime w
                   (ATick (gap p))) H0) as (tick' & ->).
    match goal with
    | |- context [run _ _ _ (regular ps) ?W] =>
        destruct (IH W eq_refl) as (Hf & Hd & Hz)
    end.
    rewrite Hf, Hd, Hz. cbn [trace step].
    rewrite frames_app, deadlines_app, length_app, <- app_assoc.
    cbn [map frames deadlines flat_map app length]. repeat split. lia.
Qed.

Lemma run_regular_witness :
  ulNotifiedValue world_idle_1000 = 0
  /\ frames
       (trace (@run clock_20160806 1000 100 40
                 (regular
                    [{| gap := 0; lag := 1; p_now := 1470503039;
                        p_status := timeSet |};
                     {| gap := 990; lag := 1; p_now := 1470503040;
                        p_status := timeNeedsSync |}])
                 world_idle_1000))
     = [list_ascii_of_string "OAL1608067170400";
        list_ascii_of_string "OML1608067170401"].
Proof.
  split; [reflexivity |].
  exact (proj1 (run_regular clock_20160806 1000 100 40
                  [{| gap := 0; lag := 1; p_now := 1470503039;
                      p_status := timeSet |};
                   {| gap := 990; lag := 1; p_now := 1470503040;
                      p_status := timeNeedsSync |}]
                  world_idle_1000 eq_refl)).
Defined.

(** *** The interrupt handler and the start-up polling *)

(** X12.  A second interrupt within the same tick changes nothing: the
    handler run twice leaves the same state as the handler run once. *)
Theorem IF482IRQ_idempotent (w : world) :
  IF482IRQ (IF482IRQ w) = IF482IRQ w.
Proof.
  unfold IF482IRQ, xTaskNotifyFromISR, xTaskGetTickCountFromISR.
  cbn [xTickCount ulNotifiedValue ucNotifyState trace].
  rewrite <- Z.lor_assoc, Z.lor_diag. reflexivity.
Qed.

(** X13.  The start-up polling ends with the first sample that differs
    from the time first read, all samples before it being equal to that
    time; it never ends as long as every sample equals it. *)
Theorem poll_new_second_spec (t : time_t) (samples : list time_t) :
  (forall v : time_t,
      poll_new_second t samples = Some v
      <-> exists (k : nat) (rest : list time_t),
            samples = repeat t k ++ v :: rest /\ v <> t)
  /\ (poll_new_second t samples = None <-> Forall (eq t) samples).
Proof.
  induction samples as [| s samples [IHs IHn]].
  - split.
    + intros v. split; [discriminate |].
      intros (k & rest & H & _). destruct k; discriminate H.
    + split; [constructor | reflexivity].
  - cbn [poll_new_second]. destruct (Z.eqb_spec t s) as [<- | Hne].
    + split.
      * intros v. rewrite IHs. split.
        -- intros (k & rest & -> & Hv). exists (S k), rest. now split.
        -- intros (k & rest & H & Hv). destruct k as [| k].
           ++ cbn in H. injection H as H _. congruence.
           ++ cbn in H. injection H as H. exists k, rest. now split.
      * rewrite IHn. split; [now constructor | now inversion 1].
    + split.
      * intros v. split.
        -- intros [= <-]. exists 0%nat, samples. split; [reflexivity |].
           congruence.
        -- intros (k & rest & H & Hv). destruct k as [| k].
           ++ cbn in H. injection H as H _. now subst.
           ++ cbn in H. injection H as H _. congruence.
      * split; [discriminate | inversion 1; congruence].
Qed.

Lemma poll_new_second_spec_witness :
  (exists (k : nat) (rest : list time_t),
      [5; 5; 6; 7] = repeat 5 k ++ 6 :: rest /\ 6 <> 5)
  /\ poll_new_second 5 [5; 5; 6; 7] = Some 6.
Proof.
  assert (exists (k : nat) (rest : list time_t),
             [5; 5; 6; 7] = repeat 5 k ++ 6 :: rest /\ 6 <> 5) as H
      by (exists 2%nat, [7]; split; [reflexivity | discriminate]).
  split; [exact H |].
  exact (proj2 (proj1 (poll_new_second_spec 5 [5; 5; 6; 7]) 6) H).
Defined.

Lemma wake_deadline_from_zero_witness :
  0 <= 5000 /\ 0 <= 100 /\ 100 * 1000 < 2 ^ 32 /\ 5000 + 100 < 2 ^ 32
  /\ wake_deadline 1000 100 0 5000 = 5000 + 100.
Proof.
  assert (0 <= 5000) as H1 by discriminate.
  assert (0 <= 100) as H2 by discriminate.
  assert (100 * 1000 < 2 ^ 32) as H3 by reflexivity.
  assert (5000 + 100 < 2 ^ 32) as H4 by reflexivity.
  repeat (split; [assumption |]).
  exact (wake_deadline_from_zero 100 5000 H1 H2 H3 H4).
Defined.
